(** * ecosystem.config.js: the process list handed to the process manager

    The repository's single source file assigns one object literal to
    [module.exports].  The development below embeds that literal as
    syntax, evaluates it to a JavaScript value (objects are finite maps
    from property names to values), and proves the structural facts the
    specification states about the exported list of applications. *)

From stdpp Require Import gmap strings list fin_maps.

Local Open Scope string_scope.
Local Set Warnings "-register-all".

(** ** JavaScript values and literals *)

Module Js.

(** The values an object/array/string literal can denote.  An object is
    a finite map from property names to values; reading a property that
    is absent gives [None] (JavaScript's [undefined]). *)
Inductive value : Type :=
| VString (s : string)
| VArray (items : list value)
| VObject (props : gmap string value).

(** The literal syntax used by the source file.  An object literal is
    the sequence of its [key: expr] properties in source order. *)
Inductive literal : Type :=
| LString (s : string)
| LArray (items : list literal)
| LObject (props : list (string * literal)).

(** Object literals define their properties left to right, so a
    repeated key keeps the last value written.  The one key that defines
    no property, [__proto__] (it sets the prototype instead), is outside
    this model; the source file never writes it. *)
Definition define_props (kvs : list (string * value)) : gmap string value :=
  foldl (fun m kv => <[kv.1 := kv.2]> m) ∅ kvs.

Fixpoint eval (l : literal) : value :=
  match l with
  | LString s => VString s
  | LArray items => VArray (map eval items)
  | LObject props => VObject (define_props (map (fun kv => (kv.1, eval kv.2)) props))
  end.

(** [v[k]] for an own property of an object, that is
    [Object.hasOwn(v, k) ? v[k] : undefined].  Properties inherited from
    a prototype ([constructor], [toString], ...) and the indexed
    properties of arrays and strings are not modelled; the keys the file
    writes ([apps], [name], [script], [args], [interpreter]) are none of
    those. *)
Definition get (k : string) (v : value) : option value :=
  match v with
  | VObject props => props !! k
  | _ => None
  end.

(** [typeof v === "string"], returning the string. *)
Definition as_string (v : value) : option string :=
  match v with
  | VString s => Some s
  | _ => None
  end.

Definition as_array (v : value) : option (list value) :=
  match v with
  | VArray items => Some items
  | _ => None
  end.

(** The own property names of an object ([Object.keys], as a set). *)
Definition keys (v : value) : gset string :=
  match v with
  | VObject props => dom props
  | _ => ∅
  end.

(** A property read that must yield a string. *)
Definition get_string (k : string) (v : value) : option string :=
  get k v ≫= as_string.

End Js.

(** ** The source file *)

Import Js.

(** First element of the [apps] array. *)
Definition hub_literal : literal :=
  LObject [
    ("name", LString "wiigii-hub");
    ("script", LString "./app.py");
    ("interpreter", LString "python")
  ].

(** Second element of the [apps] array. *)
Definition tunnel_literal : literal :=
  LObject [
    ("name", LString "wiigii-tunnel");
    ("script", LString "./cloudflared.exe");
    ("args", LString "tunnel --url http://127.0.0.1:5000");
    ("interpreter", LString "none")
  ].

(** The right-hand side of [module.exports = ...]. *)
Definition module_exports_literal : literal :=
  LObject [ ("apps", LArray [ hub_literal; tunnel_literal ]) ].

Definition module_exports : value := eval module_exports_literal.

(** [module.exports.apps], the list the process manager reads.  A missing
    or non-array [apps] property yields no entries. *)
Definition apps : list value :=
  default [] (get "apps" module_exports ≫= as_array).

Definition hub : value := eval hub_literal.
Definition tunnel : value := eval tunnel_literal.

(** Predicates on entries used to select from the list. *)
Definition named (n : string) (e : value) : Prop := get_string "name" e = Some n.
Definition has_args (e : value) : Prop := is_Some (get "args" e).
Definition interpreted_by (i : string) (e : value) : Prop :=
  get_string "interpreter" e = Some i.

#[global] Instance named_dec n e : Decision (named n e).
Proof. unfold named. apply _. Defined.
#[global] Instance has_args_dec e : Decision (has_args e).
Proof. unfold has_args. apply _. Defined.
#[global] Instance interpreted_by_dec i e : Decision (interpreted_by i e).
Proof. unfold interpreted_by. apply _. Defined.

(** ** Reading of the interpreter field *)

(** Modelled from the spec: the process manager that loads the list and
    spawns the processes is an external collaborator with no code in this
    repository.  The two ways an entry can be launched follow the spec's
    field table: through a named runtime, or directly as an executable. *)
Inductive launch_mode : Type :=
| Direct
| Runtime (runtime : string).

(** Modelled from the spec: the value of [interpreter] that the spec calls
    the sentinel for direct execution; the consumer that gives it this
    meaning is not part of the repository. *)
Definition interpreter_sentinel : string := "none".

(** Modelled from the spec: how the absent process manager reads an
    entry's [interpreter] field, "runtime to invoke the script with, or a
    sentinel value indicating the script is itself a native/direct
    executable".  An entry without a string [interpreter] has no reading. *)
Definition launch_mode_of (e : value) : option launch_mode :=
  i ← get_string "interpreter" e;
  Some (if decide (i = interpreter_sentinel) then Direct else Runtime i).

(** Modelled from the spec: what the absent process manager is asked to
    start for one entry, after the spec's field table: how the script is
    run, the "entry point to launch", and the "raw argument string passed
    to the script", if the entry gives one. *)
Record launch : Type := Launch {
  launch_how : launch_mode;
  launch_script : string;
  launch_args : option string
}.

(** Modelled from the spec: the [args] field is optional; when present it
    is one raw string.  An [args] that is not a string has no reading. *)
Definition read_args (e : value) : option (option string) :=
  match get "args" e with
  | None => Some None
  | Some v => Some <$> as_string v
  end.

(** Modelled from the spec: the launch an entry designates, for the
    process manager that is not part of the repository.  An entry that
    lacks a string [script] or [interpreter] designates none. *)
Definition launch_of (e : value) : option launch :=
  how ← launch_mode_of e;
  p ← get_string "script" e;
  a ← read_args e;
  Some (Launch how p a).

(** ** Object literals as finite maps *)

Section define_props.
Implicit Types (kvs : list (string * value)) (k : string) (v : value).

Lemma define_props_nil : define_props [] = ∅.
Proof. reflexivity. Qed.

Lemma define_props_snoc kvs k v :
  define_props (kvs ++ [(k, v)]) = <[k := v]> (define_props kvs).
Proof. unfold define_props. by rewrite foldl_snoc. Qed.

(** The last definition of a key is the one that is read back. *)
Lemma lookup_define_props_last kvs k v :
  define_props (kvs ++ [(k, v)]) !! k = Some v.
Proof. rewrite define_props_snoc. apply lookup_insert_eq. Qed.

Lemma lookup_define_props_other kvs k k' v :
  k ≠ k' → define_props (kvs ++ [(k, v)]) !! k' = define_props kvs !! k'.
Proof. intros Hne. rewrite define_props_snoc. by apply lookup_insert_ne. Qed.

(** The property names of the object are the keys written in the literal. *)
Lemma dom_define_props kvs :
  dom (define_props kvs) = list_to_set kvs.*1.
Proof.
  induction kvs as [|[k v] kvs IH] using rev_ind;
    [by rewrite define_props_nil, dom_empty_L|].
  rewrite define_props_snoc, dom_insert_L, IH, fmap_app, list_to_set_app_L.
  simpl. rewrite (right_id_L ∅ (∪)). apply (comm_L (∪)).
Qed.

(** A key that the literal never writes reads as undefined. *)
Lemma lookup_define_props_None kvs k :
  k ∉ kvs.*1 → define_props kvs !! k = None.
Proof.
  intros Hk. apply not_elem_of_dom. rewrite dom_define_props. set_solver.
Qed.

End define_props.

(** Evaluating the property values leaves the property names alone. *)
Lemma eval_props_keys (props : list (string * literal)) :
  (map (λ kv, (kv.1, eval kv.2)) props).*1 = props.*1.
Proof. induction props as [|[k l] props IH]; [done|]. by f_equal/=. Qed.

(** ** The exported list *)

Lemma apps_entries : apps = [hub; tunnel].
Proof. reflexivity. Qed.

Lemma hub_fields :
  get_string "name" hub = Some "wiigii-hub" ∧
  get_string "script" hub = Some "./app.py" ∧
  get "args" hub = None ∧
  get_string "interpreter" hub = Some "python".
Proof. repeat split; vm_compute; reflexivity. Qed.

Lemma tunnel_fields :
  get_string "name" tunnel = Some "wiigii-tunnel" ∧
  get_string "script" tunnel = Some "./cloudflared.exe" ∧
  get "args" tunnel = Some (VString "tunnel --url http://127.0.0.1:5000") ∧
  get_string "interpreter" tunnel = Some "none".
Proof. repeat split; vm_compute; reflexivity. Qed.

(** Under the reading of the specification, the hub is run by the
    [python] runtime and the tunnel client is run directly. *)
Lemma launch_modes :
  launch_mode_of <$> apps = [Some (Runtime "python"); Some Direct].
Proof. vm_compute. reflexivity. Qed.

Lemma launches :
  launch_of <$> apps =
    [Some (Launch (Runtime "python") "./app.py" None);
     Some (Launch Direct "./cloudflared.exe"
             (Some "tunnel --url http://127.0.0.1:5000"))].
Proof. vm_compute. reflexivity. Qed.

(** The property names of the two entries. *)
Lemma hub_keys : keys hub = {["name"; "script"; "interpreter"]}.
Proof.
  unfold hub, hub_literal. simpl. rewrite dom_define_props.
  apply (bool_decide_unpack _). vm_compute. exact I.
Qed.

Lemma tunnel_keys : keys tunnel = {["name"; "script"; "args"; "interpreter"]}.
Proof.
  unfold tunnel, tunnel_literal. simpl. rewrite dom_define_props.
  apply (bool_decide_unpack _). vm_compute. exact I.
Qed.

(** ** Structural properties of the list *)

(** Splits a property of every entry into one goal for the hub and one
    for the tunnel client. *)
Ltac each_entry :=
  rewrite apps_entries;
  apply Forall_cons_2; [|apply Forall_cons_2; [|apply Forall_nil_2]].

(** C1: the exported [apps] list has exactly two elements, and each of
    them is an application record: an object with a string [name],
    [script] and [interpreter], an [args] that is omitted or a string,
    and no property besides these four. *)
Theorem apps_two_entries :
  length apps = 2 ∧
  Forall (λ e, ∃ props n p i,
    e = VObject props ∧
    get_string "name" e = Some n ∧
    get_string "script" e = Some p ∧
    get_string "interpreter" e = Some i ∧
    (get "args" e = None ∨ ∃ a, get "args" e = Some (VString a)) ∧
    keys e ⊆ {["name"; "script"; "args"; "interpreter"]}) apps.
Proof.
  split; [by rewrite apps_entries|].
  destruct hub_fields as (Hn & Hp & Ha & Hi).
  destruct tunnel_fields as (Hn' & Hp' & Ha' & Hi').
  each_entry.
  - eexists _, "wiigii-hub", "./app.py", "python".
    split_and!; [reflexivity | done.. | by left |].
    rewrite hub_keys. apply (bool_decide_unpack _). vm_compute. exact I.
  - eexists _, "wiigii-tunnel", "./cloudflared.exe", "none".
    split_and!; [reflexivity | done.. | right; by eexists |].
    by rewrite tunnel_keys.
Qed.

(** C2: any two entries at different positions of [apps] have [name]
    fields that are strings and differ. *)
Theorem apps_names_distinct (i j : nat) (e1 e2 : value) :
  i ≠ j → apps !! i = Some e1 → apps !! j = Some e2 →
  ∃ n1 n2, get_string "name" e1 = Some n1 ∧ get_string "name" e2 = Some n2 ∧ n1 ≠ n2.
Proof.
  rewrite apps_entries. intros Hij Hi Hj.
  destruct hub_fields as (Hh & _), tunnel_fields as (Ht & _).
  destruct i as [|[|i]], j as [|[|j]]; simplify_eq/=.
  - by exists "wiigii-hub", "wiigii-tunnel".
  - by exists "wiigii-tunnel", "wiigii-hub".
Qed.

Lemma apps_names_distinct_witness :
  0 ≠ 1 ∧ apps !! 0 = Some hub ∧ apps !! 1 = Some tunnel ∧
  ∃ n1 n2, get_string "name" hub = Some n1 ∧ get_string "name" tunnel = Some n2 ∧ n1 ≠ n2.
Proof.
  split; [lia|]. split; [reflexivity|]. split; [reflexivity|].
  apply (apps_names_distinct 0 1 hub tunnel); [lia | reflexivity | reflexivity].
Defined.

(** C3: every entry of [apps] has a [name] property that is a non-empty
    string. *)
Theorem apps_names_nonempty :
  Forall (λ e, ∃ n, get_string "name" e = Some n ∧ n ≠ "") apps.
Proof.
  destruct hub_fields as (Hh & _), tunnel_fields as (Ht & _).
  each_entry.
  - by exists "wiigii-hub".
  - by exists "wiigii-tunnel".
Qed.

(** C4: every entry of [apps] has a [script] property that is a non-empty
    string (the path of the program to launch). *)
Theorem apps_scripts_nonempty :
  Forall (λ e, ∃ p, get_string "script" e = Some p ∧ p ≠ "") apps.
Proof.
  destruct hub_fields as (_ & Hh & _), tunnel_fields as (_ & Ht & _).
  each_entry.
  - by exists "./app.py".
  - by exists "./cloudflared.exe".
Qed.

(** C5: an entry designates direct execution exactly when its
    [interpreter] is the sentinel ["none"]; in [apps] the entry named
    ["wiigii-tunnel"] is such an entry, so its script is run directly. *)
Theorem sentinel_designates_direct_execution :
  (∀ e, interpreted_by interpreter_sentinel e ↔ launch_mode_of e = Some Direct) ∧
  ∃ t, filter (named "wiigii-tunnel") apps = [t] ∧
       interpreted_by interpreter_sentinel t ∧
       launch_mode_of t = Some Direct.
Proof.
  split.
  - intros e. unfold interpreted_by, launch_mode_of.
    destruct (get_string "interpreter" e) as [i|]; simpl; [|naive_solver].
    case_decide; naive_solver.
  - exists tunnel. repeat split; vm_compute; reflexivity.
Qed.

Lemma sentinel_designates_direct_execution_witness :
  interpreted_by interpreter_sentinel tunnel ∧ launch_mode_of tunnel = Some Direct.
Proof.
  assert (H : interpreted_by interpreter_sentinel tunnel) by (vm_compute; reflexivity).
  split; [exact H|].
  exact (proj1 (proj1 sentinel_designates_direct_execution tunnel) H).
Defined.

(** C6: every entry of [apps] defines [name], [script] and [interpreter]
    as strings, and the interpreter is either the direct-execution
    sentinel ["none"] or the (non-empty) name of a runtime. *)
Theorem apps_entries_well_formed :
  Forall (λ e, ∃ n p i,
    get_string "name" e = Some n ∧
    get_string "script" e = Some p ∧
    get_string "interpreter" e = Some i ∧
    (i = "none" ∨ (i ≠ "none" ∧ i ≠ ""))) apps.
Proof.
  destruct hub_fields as (Hn & Hp & _ & Hi), tunnel_fields as (Hn' & Hp' & _ & Hi').
  each_entry.
  - exists "wiigii-hub", "./app.py", "python". split_and!; [done..|]. by right.
  - exists "wiigii-tunnel", "./cloudflared.exe", "none". split_and!; [done..|]. by left.
Qed.

(** C7: [args] is optional and, when present, a single string: every
    entry of [apps] either omits it or holds a string there, some entry
    omits it, and the only entry that has it is the one named
    ["wiigii-tunnel"], with value ["tunnel --url http://127.0.0.1:5000"]. *)
Theorem apps_args_optional :
  Forall (λ e, get "args" e = None ∨ ∃ a, get "args" e = Some (VString a)) apps ∧
  (∃ e, e ∈ apps ∧ get "args" e = None) ∧
  ∃ t, filter has_args apps = [t] ∧
       named "wiigii-tunnel" t ∧
       get "args" t = Some (VString "tunnel --url http://127.0.0.1:5000").
Proof.
  destruct hub_fields as (_ & _ & Ha & _), tunnel_fields as (Hn & _ & Ha' & _).
  split_and!.
  - each_entry; [by left | right; eauto].
  - exists hub. split; [|done]. rewrite apps_entries. apply list_elem_of_here.
  - exists tunnel. split_and!; [vm_compute; reflexivity | done..].
Qed.

(** C8: the exported value is an object whose only property is [apps];
    that property holds the array of the two entries written in the
    file, which is the list [apps]. *)
Theorem exports_only_apps :
  ∃ props e1 e2,
    module_exports = VObject props ∧
    dom props = {["apps"]} ∧
    props !! "apps" = Some (VArray [e1; e2]) ∧
    apps = [e1; e2] ∧
    e1 = VObject {[ "name" := VString "wiigii-hub";
                    "script" := VString "./app.py";
                    "interpreter" := VString "python" ]} ∧
    e2 = VObject {[ "name" := VString "wiigii-tunnel";
                    "script" := VString "./cloudflared.exe";
                    "args" := VString "tunnel --url http://127.0.0.1:5000";
                    "interpreter" := VString "none" ]}.
Proof.
  eexists _, hub, tunnel. split; [reflexivity|].
  split; [|split; [|split; [|split]]].
  - rewrite dom_define_props. simpl. apply (right_id_L ∅ (∪)).
  - vm_compute. reflexivity.
  - apply apps_entries.
  - vm_compute. reflexivity.
  - vm_compute. reflexivity.
Qed.

(** C9: the one entry named ["wiigii-hub"] has exactly the properties
    [name], [script] and [interpreter], so no [args] and no other
    option; its script ["./app.py"] is launched through the ["python"]
    runtime with no argument string. *)
Theorem hub_has_no_args :
  ∃ h, filter (named "wiigii-hub") apps = [h] ∧
       keys h = {["name"; "script"; "interpreter"]} ∧
       get "args" h = None ∧
       get_string "script" h = Some "./app.py" ∧
       get_string "interpreter" h = Some "python" ∧
       launch_of h = Some (Launch (Runtime "python") "./app.py" None).
Proof.
  destruct hub_fields as (_ & Hp & Ha & Hi).
  exists hub. split; [vm_compute; reflexivity|].
  split; [apply hub_keys|]. split; [exact Ha|]. split; [exact Hp|].
  split; [exact Hi|].
  unfold launch_of, launch_mode_of, read_args. by rewrite Hi, Hp, Ha.
Qed.

(** C10: exactly one entry of [apps] has interpreter ["none"] and its
    script ends in [".exe"]; the one other entry has interpreter
    ["python"]. *)
Theorem one_sentinel_entry :
  ∃ t h, filter (interpreted_by "none") apps = [t] ∧
         (∃ stem, get_string "script" t = Some (stem +:+ ".exe")) ∧
         filter (λ e, ¬ interpreted_by "none" e) apps = [h] ∧
         interpreted_by "python" h.
Proof.
  exists tunnel, hub. split_and!; try (vm_compute; reflexivity).
  exists "./cloudflared". vm_compute. reflexivity.
Qed.

(** ** Reading back what the literal writes *)

(** When no key is written twice, each key holds the value written
    beside it. *)
Lemma lookup_define_props_NoDup (kvs : list (string * value)) k v :
  NoDup kvs.*1 → (k, v) ∈ kvs → define_props kvs !! k = Some v.
Proof.
  induction kvs as [|[k' v'] kvs IH] using rev_ind; intros Hnd Hin.
  { by apply not_elem_of_nil in Hin. }
  rewrite fmap_app in Hnd. apply NoDup_app in Hnd as (Hnd & Hfresh & _).
  apply elem_of_app in Hin as [Hin|Hin].
  - rewrite lookup_define_props_other; [by apply IH|].
    intros ->. apply (Hfresh k); [|apply list_elem_of_here].
    apply list_elem_of_fmap. by exists (k, v).
  - apply list_elem_of_singleton in Hin. injection Hin as -> ->.
    apply lookup_define_props_last.
Qed.

(** For an object literal within the model (no [__proto__] key) that
    writes no key twice, every written key is an own property holding
    the value of the expression beside it. *)
Lemma literal_reads_back (props : list (string * literal)) :
  NoDup props.*1 → "__proto__" ∉ props.*1 →
  Forall (λ kv, get kv.1 (eval (LObject props)) = Some (eval kv.2)) props.
Proof.
  intros Hnd _. apply Forall_forall. intros [k l] Hin. simpl.
  apply lookup_define_props_NoDup; [by rewrite eval_props_keys|].
  apply list_elem_of_In, in_map_iff. exists (k, l).
  split; [done|]. by apply list_elem_of_In.
Qed.

(** X1: none of the three object literals of the file (the exported
    object and the two entries) writes a key twice or writes
    [__proto__]; hence each key written in the file is an own property of
    its object and holds the value written beside it. *)
Theorem literals_write_each_key_once :
  Forall (λ l, ∃ props,
    l = LObject props ∧
    NoDup props.*1 ∧
    ("__proto__" ∉ props.*1) ∧
    Forall (λ kv, get kv.1 (eval l) = Some (eval kv.2)) props)
  [module_exports_literal; hub_literal; tunnel_literal].
Proof.
  assert (Hdec : ∀ ks : list string,
    bool_decide (NoDup ks ∧ ("__proto__" ∉ ks)) = true →
    NoDup ks ∧ ("__proto__" ∉ ks)).
  { intros ks Hks. by apply bool_decide_eq_true in Hks. }
  repeat apply Forall_cons_2; [..|apply Forall_nil_2];
    (eexists; split; [reflexivity|]);
    match goal with
    | |- NoDup ?ks ∧ (_ ∉ _) ∧ _ =>
        destruct (Hdec ks) as [Hnd Hproto]; [vm_compute; reflexivity|];
        split; [exact Hnd|]; split; [exact Hproto|];
        by apply literal_reads_back
    end.
Qed.

(** ** What the entries do not contain *)

(** Every value stored by [define_props] is one of the values written. *)
Lemma define_props_Forall (P : value → Prop) (kvs : list (string * value)) :
  Forall P kvs.*2 → map_Forall (λ _, P) (define_props kvs).
Proof.
  induction kvs as [|[k v] kvs IH] using rev_ind; intros HP.
  { apply map_Forall_empty. }
  rewrite fmap_app in HP. apply Forall_app in HP as [HP Hv].
  rewrite define_props_snoc. apply map_Forall_insert_2; [|by apply IH].
  by inversion Hv.
Qed.

(** X3: no entry of [apps] has a property other than [name], [script],
    [args] and [interpreter]. *)
Theorem apps_only_known_keys :
  Forall (λ e, keys e ⊆ {["name"; "script"; "args"; "interpreter"]}) apps.
Proof.
  each_entry.
  - rewrite hub_keys. apply (bool_decide_unpack _). vm_compute. exact I.
  - by rewrite tunnel_keys.
Qed.

(** X4: every entry of [apps] is an object all of whose properties hold
    strings: no entry nests an object or an array. *)
Theorem apps_values_are_strings :
  Forall (λ e, ∃ props, e = VObject props ∧
                        map_Forall (λ _ v, is_Some (as_string v)) props) apps.
Proof.
  each_entry; (eexists; split; [reflexivity|]);
    apply define_props_Forall; simpl; repeat constructor; by eexists.
Qed.

(** X5: every [script] in [apps] is a path relative to the directory the
    list is loaded from: it starts with ["./"]. *)
Theorem apps_scripts_relative :
  Forall (λ e, ∃ rest, get_string "script" e = Some ("./" +:+ rest)) apps.
Proof.
  destruct hub_fields as (_ & Hh & _), tunnel_fields as (_ & Ht & _).
  each_entry.
  - by exists "app.py".
  - by exists "cloudflared.exe".
Qed.
